(** * BMI calculator: the calculation core of [BMI_calculator.py]

    The script computes on Python floats, which are IEEE binary64.  Module
    [Binary64] embeds its functions on Rocq's primitive doubles: every
    [+], [-], [*] and [/] is the rounded double operation, [round], the
    [.1f] format and the conversion of literals are correctly rounded, and
    division by zero, overflow and NaN raise as they do in CPython.  The
    only part of the arithmetic that is not the script's own is the C
    library's [pow], which [float ** 2] calls: it is a parameter of the
    functions that square, and what is proved at a concrete input is proved
    for every [pow] that errs by less than one unit in the last place.

    Before that module the same functions are written over exact rationals
    ([Q]), reading each formula as real arithmetic.  The two agree wherever
    no rounding is involved: the comparisons with 18.5, 25 and 30, the tests
    on the unit, gender and category strings, the tables.  Statements about
    numeric results are made on [Binary64].

    Strings.  [unit], [gender] and the category are Python strings and are
    kept as [string]; the comparisons [==] are [String.eqb]. *)

From Stdlib Require Import QArith Qround Qabs ZArith Lia Lqa Bool List.
From Stdlib Require Import String Ascii DecimalString Floats.
Import ListNotations.

Open Scope Q_scope.

(** ** Exceptions and results *)

Inductive exn : Set :=
| ZeroDivisionError
| OverflowError
| ValueError.

Inductive result (A : Type) : Type :=
| Ok (value : A)
| Raise (e : exn).

Arguments Ok {A} value.
Arguments Raise {A} e.

Definition bind {A B : Type} (m : result A) (k : A -> result B) : result B :=
  match m with
  | Ok a => k a
  | Raise e => Raise e
  end.

Notation "x <- m ;; k" := (bind m (fun x => k))
  (at level 61, m at next level, right associativity).

Definition raises {A : Type} (m : result A) : Prop :=
  exists e, m = Raise e.

Definition returns {A : Type} (m : result A) : Prop :=
  exists a, m = Ok a.

(** ** The Python operators and built-ins the script uses *)

Module Py.

(** [x < y] on numbers. *)
Definition lt (x y : Q) : bool :=
  match x ?= y with
  | Lt => true
  | _ => false
  end.

(** [x / y]: true division, raising on a zero divisor. *)
Definition truediv (x y : Q) : result Q :=
  if Qeq_bool y 0 then Raise ZeroDivisionError else Ok (x / y).

(** [x ** 2]. *)
Definition pow2 (x : Q) : Q := x ^ 2.

(** [round(x)]: the nearest integer, a tie going to the even one. *)
Definition round (x : Q) : Z :=
  let f := Qfloor x in
  match ((x - inject_Z f) ?= (1 # 2))%Q with
  | Lt => f
  | Gt => (f + 1)%Z
  | Eq => if Z.even f then f else (f + 1)%Z
  end.

(** [round(x, 1)]: the nearest multiple of one tenth. *)
Definition round1 (x : Q) : Q := round (x * 10) # 10.

(** [abs(x)]. *)
Definition abs (x : Q) : Q := Qabs x.

(** Decimal digits of a non-negative integer, as [str] prints them. *)
Definition digits (n : Z) : string :=
  NilZero.string_of_uint (N.to_uint (Z.to_N n)).

(** [f"{x:.1f}"]: sign, integer part, point, one decimal. *)
Definition format_1f (x : Q) : string :=
  let t := Z.abs (round (x * 10)) in
  ((if lt x 0 then "-" else "")
     ++ digits (t / 10) ++ "." ++ digits (t mod 10))%string.

End Py.

(** ** The calculation functions, over exact rationals *)

(** [calculate_bmi(weight, height, unit)] *)
Definition calculate_bmi (weight height : Q) (unit : string) : result Q :=
  wh <- (if (unit =? "Imperial")%string
         then Ok (weight * 0.453592, height * 0.0254)
         else (height_m <- Py.truediv height 100 ;; Ok (weight, height_m))) ;;
  let (weight_kg, height_m) := (wh : Q * Q) in
  bmi <- Py.truediv weight_kg (Py.pow2 height_m) ;;
  Ok (Py.round1 bmi).

(** [get_bmi_category(bmi)] *)
Definition get_bmi_category (bmi : Q) : string :=
  if Py.lt bmi 18.5 then "Underweight"
  else if Py.lt bmi 25 then "Normal Weight"
  else if Py.lt bmi 30 then "Overweight"
  else "Obese".

(** [get_bmi_color(bmi)] *)
Definition get_bmi_color (bmi : Q) : string :=
  if Py.lt bmi 18.5 then "#3182ce"
  else if Py.lt bmi 25 then "#38a169"
  else if Py.lt bmi 30 then "#d69e2e"
  else "#e53e3e".

(** [calculate_ideal_weight(height, gender, unit)] (Devine formula) *)
Definition calculate_ideal_weight (height : Q) (gender unit : string)
  : result Z :=
  let height_cm := if (unit =? "Imperial")%string then height * 2.54 else height in
  ideal_weight <-
    (if (gender =? "Male")%string
     then (inches <- Py.truediv (height_cm - 152.4) 2.54 ;;
           Ok (50 + 2.3 * inches))
     else (inches <- Py.truediv (height_cm - 152.4) 2.54 ;;
           Ok (45.5 + 2.3 * inches))) ;;
  if (unit =? "Imperial")%string
  then Ok (Py.round (ideal_weight * 2.20462))
  else Ok (Py.round ideal_weight).

(** [calculate_bmr(weight, height, age, gender, unit)] (Mifflin-St Jeor);
    [age] is the integer the age widget yields. *)
Definition calculate_bmr (weight height : Q) (age : Z) (gender unit : string)
  : Z :=
  let weight_kg := if (unit =? "Imperial")%string then weight * 0.453592 else weight in
  let height_cm := if (unit =? "Imperial")%string then height * 2.54 else height in
  let bmr :=
    if (gender =? "Male")%string
    then 10 * weight_kg + 6.25 * height_cm - 5 * inject_Z age + 5
    else 10 * weight_kg + 6.25 * height_cm - 5 * inject_Z age - 161 in
  Py.round bmr.

(** [get_recommendations(bmi_category, age, gender)] *)
Definition get_recommendations (bmi_category : string) (age : Z)
  (gender : string) : list string :=
  if (bmi_category =? "Underweight")%string then
    [ "🍽️ Focus on nutrient-dense, calorie-rich foods like nuts, seeds, avocados, and lean proteins";
      "💪 Include strength training exercises to build muscle mass along with cardiovascular fitness";
      "👨‍⚕️ Consider consulting with a nutritionist to develop a healthy weight gain plan" ]%string
  else if (bmi_category =? "Normal Weight")%string then
    [ "⚖️ Maintain your current healthy lifestyle with balanced nutrition and regular exercise";
      "🏃‍♂️ Continue with 150 minutes of moderate aerobic activity or 75 minutes vigorous activity weekly";
      "🍎 Focus on whole foods, fruits, vegetables, lean proteins, and whole grains" ]%string
  else if (bmi_category =? "Overweight")%string then
    [ "📈 Aim for gradual weight loss of 1-2 pounds per week through caloric deficit";
      "🚴‍♂️ Increase physical activity to 300+ minutes of moderate exercise per week";
      "🥕 Focus on portion control and include more vegetables, lean proteins, and whole grains" ]%string
  else
    [ "👨‍⚕️ Consult with a healthcare provider to develop a comprehensive weight management plan";
      "❤️ Start with low-impact exercises and gradually increase intensity as fitness improves";
      "📅 Consider working with a registered dietitian for personalized meal planning" ]%string.

(** ** The weight-goal block of the main flow *)

(** [weight_unit = "kg" if unit == "Metric" else "lbs"] *)
Definition weight_unit (unit : string) : string :=
  if (unit =? "Metric")%string then "kg" else "lbs".

(** [bmi_target * (height/100)**2] for Metric, else
    [bmi_target * (height*0.0254)**2 * 2.20462]. *)
Definition target_weight (bmi_target height : Q) (unit : string) : result Q :=
  if (unit =? "Metric")%string
  then (height_m <- Py.truediv height 100 ;; Ok (bmi_target * Py.pow2 height_m))
  else Ok (bmi_target * Py.pow2 (height * 0.0254) * 2.20462).

(** The [if category == "Underweight": ... elif category in [...]: ... else:]
    statement that assigns [weight_goal]. *)
Definition weight_goal (category unit : string) (weight height : Q)
  : result string :=
  if (category =? "Underweight")%string then
    let min_normal_bmi := 18.5 in
    target <- target_weight min_normal_bmi height unit ;;
    Ok ("+" ++ Py.format_1f (Py.abs (target - weight)) ++ " "
            ++ weight_unit unit)%string
  else if existsb (String.eqb category) ["Overweight"; "Obese"]%string then
    let max_normal_bmi := 24.9 in
    target <- target_weight max_normal_bmi height unit ;;
    Ok ("-" ++ Py.format_1f (Py.abs (weight - target)) ++ " "
            ++ weight_unit unit)%string
  else Ok "Maintain current weight"%string.

(** * The functions on IEEE binary64, as the script runs them *)

Set Warnings "-inexact-float".

Module Binary64.

(** ** Doubles and the built-ins on them *)

(** The sign bit and the exact magnitude of a finite double; [None] for
    an infinity or a NaN. *)
Definition exact (x : float) : option (bool * Q) :=
  match Prim2SF x with
  | S754_zero s => Some (s, 0)
  | S754_finite s m e =>
      Some (s, match e with
               | Z0 => Zpos m # 1
               | Zpos k => Zpos (m * 2 ^ k) # 1
               | Zneg k => Zpos m # (2 ^ k)
               end)
  | S754_infinity _ => None
  | S754_nan => None
  end.

(** The exact value of a finite double. *)
Definition value (x : float) : option Q :=
  match exact x with
  | Some (s, q) => Some (if s then - q else q)
  | None => None
  end.

(** The double nearest to the fraction [n / d]. *)
Definition nearest (n : Z) (d : positive) : float :=
  match n with
  | Z0 => 0%float
  | Zpos m =>
      SF2Prim (SFdiv prec emax (S754_finite false m 0) (S754_finite false d 0))
  | Zneg m =>
      SF2Prim (SFdiv prec emax (S754_finite true m 0) (S754_finite false d 0))
  end.

(** An [int] operand of a float operation: the nearest double, an [int]
    beyond the doubles raising. *)
Definition of_int (n : Z) : result float :=
  let x := nearest n 1 in
  if PrimFloat.is_infinity x then Raise OverflowError else Ok x.

Definition signed (s : bool) (x : float) : float :=
  if s then PrimFloat.opp x else x.

(** [x < y] *)
Definition lt (x y : float) : bool := PrimFloat.ltb x y.

(** [x / y] *)
Definition truediv (x y : float) : result float :=
  if PrimFloat.is_zero y then Raise ZeroDivisionError
  else Ok (PrimFloat.div x y).

(** [round(x)]: the exact value of the double, rounded half to even. *)
Definition round (x : float) : result Z :=
  match exact x with
  | Some (s, q) => Ok (if s then - Py.round q else Py.round q)%Z
  | None => if PrimFloat.is_nan x then Raise ValueError else Raise OverflowError
  end.

(** [round(x, 1)]: the exact value rounded to tenths, then the double
    nearest to that decimal. *)
Definition round1 (x : float) : float :=
  match exact x with
  | Some (s, q) => signed s (nearest (Py.round (q * 10)) 10)
  | None => x
  end.

(** [abs(x)] *)
Definition abs (x : float) : float := PrimFloat.abs x.

(** [f"{x:.1f}"] *)
Definition format_1f (x : float) : string :=
  match exact x with
  | Some (s, q) =>
      let t := Py.round (q * 10) in
      ((if s then "-" else "")
         ++ Py.digits (t / 10) ++ "." ++ Py.digits (t mod 10))%string
  | None =>
      if PrimFloat.is_nan x then "nan"
      else if PrimFloat.ltb x 0%float then "-inf" else "inf"
  end%string.

(** ** The functions that do not square *)

Definition get_bmi_category (bmi : float) : string :=
  if lt bmi 18.5%float then "Underweight"
  else if lt bmi 25%float then "Normal Weight"
  else if lt bmi 30%float then "Overweight"
  else "Obese".

Definition get_bmi_color (bmi : float) : string :=
  if lt bmi 18.5%float then "#3182ce"
  else if lt bmi 25%float then "#38a169"
  else if lt bmi 30%float then "#d69e2e"
  else "#e53e3e".

Definition calculate_ideal_weight (height : float) (gender unit : string)
  : result Z :=
  let height_cm :=
    if (unit =? "Imperial")%string then (height * 2.54)%float else height in
  ideal_weight <-
    (if (gender =? "Male")%string
     then (inches <- truediv (height_cm - 152.4)%float 2.54%float ;;
           Ok (50 + 2.3 * inches)%float)
     else (inches <- truediv (height_cm - 152.4)%float 2.54%float ;;
           Ok (45.5 + 2.3 * inches)%float)) ;;
  if (unit =? "Imperial")%string
  then round (ideal_weight * 2.20462)%float
  else round ideal_weight.

(** [5 * age] is integer arithmetic; the product enters the sum as a
    double. *)
Definition calculate_bmr (weight height : float) (age : Z)
  (gender unit : string) : result Z :=
  let weight_kg :=
    if (unit =? "Imperial")%string then (weight * 0.453592)%float else weight in
  let height_cm :=
    if (unit =? "Imperial")%string then (height * 2.54)%float else height in
  years <- of_int (5 * age) ;;
  let bmr :=
    if (gender =? "Male")%string
    then (10 * weight_kg + 6.25 * height_cm - years + 5)%float
    else (10 * weight_kg + 6.25 * height_cm - years - 161)%float in
  round bmr.

(** ** The functions that square, over the C library's [pow] *)

Section Libm.

(** [pow(a, 2.0)] of the C library, which [float ** 2] calls on a
    positive finite base other than 1. *)
Variable pow_2 : float -> float.

(** [x ** 2]: the cases [float.__pow__] settles itself, then the library
    call on the absolute value; an infinite result raises, a result that
    underflowed to zero is returned. *)
Definition pow2 (x : float) : result float :=
  if PrimFloat.is_nan x then Ok x
  else if PrimFloat.is_infinity x then Ok infinity
  else if PrimFloat.is_zero x then Ok 0%float
  else
    let a := PrimFloat.abs x in
    if PrimFloat.eqb a 1%float then Ok 1%float
    else
      let r := pow_2 a in
      if PrimFloat.is_infinity r then Raise OverflowError else Ok r.

Definition calculate_bmi (weight height : float) (unit : string)
  : result float :=
  wh <- (if (unit =? "Imperial")%string
         then Ok (weight * 0.453592, height * 0.0254)%float
         else (height_m <- truediv height 100%float ;; Ok (weight, height_m))) ;;
  let (weight_kg, height_m) := (wh : float * float) in
  square <- pow2 height_m ;;
  bmi <- truediv weight_kg square ;;
  Ok (round1 bmi).

Definition target_weight (bmi_target height : float) (unit : string)
  : result float :=
  if (unit =? "Metric")%string
  then (height_m <- truediv height 100%float ;;
        square <- pow2 height_m ;;
        Ok (bmi_target * square)%float)
  else (square <- pow2 (height * 0.0254)%float ;;
        Ok (bmi_target * square * 2.20462)%float).

Definition weight_goal (category unit : string) (weight height : float)
  : result string :=
  if (category =? "Underweight")%string then
    let min_normal_bmi := 18.5%float in
    target <- target_weight min_normal_bmi height unit ;;
    Ok ("+" ++ format_1f (abs (target - weight)%float) ++ " "
            ++ weight_unit unit)%string
  else if existsb (String.eqb category) ["Overweight"; "Obese"]%string then
    let max_normal_bmi := 24.9%float in
    target <- target_weight max_normal_bmi height unit ;;
    Ok ("-" ++ format_1f (abs (weight - target)%float) ++ " "
            ++ weight_unit unit)%string
  else Ok "Maintain current weight"%string.

End Libm.

(** ** What is assumed of the library's [pow] *)

(** The doubles next to the exact square of [a]: the square itself when it
    is a double, else the double below and the double above. *)
Definition square_candidates (a : float) : list float :=
  let r := PrimFloat.mul a a in
  match exact r, exact a with
  | Some (_, er), Some (_, ea) =>
      match (er ?= ea * ea)%Q with
      | Eq => [r]
      | Lt => [r; PrimFloat.next_up r]
      | Gt => [PrimFloat.next_down r; r]
      end
  | _, _ => [PrimFloat.next_down r; r]
  end.

(** A library whose [pow] errs by less than one unit in the last place
    returns one of them. *)
Definition faithful (pow_2 : float -> float) : Prop :=
  forall a : float, In (pow_2 a) (square_candidates a).

(** A correctly rounded [pow]. *)
Definition nearest_square (a : float) : float := PrimFloat.mul a a.

(** A statement that holds whatever faithful [pow] the library has. *)
Definition for_every_libm (P : (float -> float) -> Prop) : Prop :=
  forall pow_2 : float -> float, faithful pow_2 -> P pow_2.

End Binary64.

(** * The specification's vocabulary *)

Inductive UnitSystem : Set := Metric | Imperial.
Inductive Gender : Set := Male | Female.
Inductive Category : Set := Underweight | NormalWeight | Overweight | Obese.
Inductive Direction : Set := Gain | Lose | Maintain.

(** The strings the script uses for the enumerated values. *)
Definition unit_name (u : UnitSystem) : string :=
  match u with Metric => "Metric" | Imperial => "Imperial" end.

Definition gender_name (g : Gender) : string :=
  match g with Male => "Male" | Female => "Female" end.

Definition category_name (c : Category) : string :=
  match c with
  | Underweight => "Underweight"
  | NormalWeight => "Normal Weight"
  | Overweight => "Overweight"
  | Obese => "Obese"
  end.

(** The unit converter of the specification, over the rationals. *)
Record NormalizedMeasurement : Type := mkNormalized {
  weightKg : Q;
  heightM : Q;
  heightCm : Q
}.

Definition to_kg (weight : Q) (u : UnitSystem) : Q :=
  match u with Metric => weight | Imperial => weight * 0.453592 end.

Definition to_m (height : Q) (u : UnitSystem) : Q :=
  match u with Metric => height / 100 | Imperial => height * 0.0254 end.

Definition to_cm (height : Q) (u : UnitSystem) : Q :=
  match u with Metric => height | Imperial => height * 2.54 end.

Definition normalize (weight height : Q) (u : UnitSystem)
  : NormalizedMeasurement :=
  mkNormalized (to_kg weight u) (to_m height u) (to_cm height u).

(** Rounding, as the specification uses the word: the result is a multiple
    of the step and no other multiple is nearer. *)
Definition rounded_to_tenth (x r : Q) : Prop :=
  (exists n : Z, r = n # 10) /\ Qabs (r - x) <= 1 # 20.

Definition rounded_to_integer (x : Q) (n : Z) : Prop :=
  Qabs (inject_Z n - x) <= 1 # 2.

(** The unrounded body mass index, weightKg / heightM². *)
Definition bmi_formula (m : NormalizedMeasurement) : Q :=
  weightKg m / (heightM m * heightM m).

(** The display colour of each category. *)
Definition category_color (c : Category) : string :=
  match c with
  | Underweight => "#3182ce"
  | NormalWeight => "#38a169"
  | Overweight => "#d69e2e"
  | Obese => "#e53e3e"
  end.

(** The Devine formula, in kilograms. *)
Definition devine (height_cm : Q) (g : Gender) : Q :=
  match g with
  | Male => 50 + 2.3 * ((height_cm - 152.4) / 2.54)
  | Female => 45.5 + 2.3 * ((height_cm - 152.4) / 2.54)
  end.

(** The ideal weight in the unit system of the input, before rounding. *)
Definition ideal_weight_formula (height : Q) (g : Gender) (u : UnitSystem) : Q :=
  match u with
  | Metric => devine (to_cm height u) g
  | Imperial => devine (to_cm height u) g * 2.20462
  end.

(** The Mifflin-St Jeor equation. *)
Definition mifflin (weight_kg height_cm : Q) (age : Z) (g : Gender) : Q :=
  match g with
  | Male => 10 * weight_kg + 6.25 * height_cm - 5 * inject_Z age + 5
  | Female => 10 * weight_kg + 6.25 * height_cm - 5 * inject_Z age - 161
  end.

(** The inputs the specification calls invalid. *)
Definition invalid_input (weight height : float) (age : Z) (gender unit : string)
  : Prop :=
  PrimFloat.leb height 0 = true \/ PrimFloat.leb weight 0 = true \/
  (age <= 0)%Z \/
  (unit <> "Metric"%string /\ unit <> "Imperial"%string) \/
  (gender <> "Male"%string /\ gender <> "Female"%string).

(** A weight in kilograms, expressed in the unit system of the input. *)
Definition from_kg (kg : Q) (u : UnitSystem) : Q :=
  match u with Metric => kg | Imperial => kg * 2.20462 end.

(** The target weight for a target index: index × heightM², in the unit
    system of the input. *)
Definition target_formula (bmi_target height : Q) (u : UnitSystem) : Q :=
  from_kg (bmi_target * (to_m height u * to_m height u)) u.

(** The label of the weight unit. *)
Definition unit_label (u : UnitSystem) : string :=
  match u with Metric => "kg" | Imperial => "lbs" end.

(** [s] is the decimal numeral, with one digit after the point, of the
    non-negative number [r]. *)
Definition decimal_1f (s : string) (r : Q) : Prop :=
  exists n d : Z,
    (0 <= n)%Z /\ (0 <= d < 10)%Z /\
    s = (Py.digits n ++ "." ++ Py.digits d)%string /\
    r = (10 * n + d)%Z # 10.

(** How the page shows a goal: the direction as a sign in front of the
    magnitude and the unit label, or the maintain message. *)
Definition shown (d : Direction) (magnitude label : string) : string :=
  match d with
  | Gain => "+" ++ magnitude ++ " " ++ label
  | Lose => "-" ++ magnitude ++ " " ++ label
  | Maintain => "Maintain current weight"
  end%string.

(** * The formulas in double arithmetic

    The specification's formulas with every operation the rounded double
    operation, in the order the script evaluates them. *)

Definition to_kg64 (weight : float) (u : UnitSystem) : float :=
  match u with Metric => weight | Imperial => (weight * 0.453592)%float end.

Definition to_m64 (height : float) (u : UnitSystem) : float :=
  match u with
  | Metric => (height / 100)%float
  | Imperial => (height * 0.0254)%float
  end.

Definition to_cm64 (height : float) (u : UnitSystem) : float :=
  match u with Metric => height | Imperial => (height * 2.54)%float end.

Definition from_kg64 (kg : float) (u : UnitSystem) : float :=
  match u with Metric => kg | Imperial => (kg * 2.20462)%float end.

Definition devine64 (height_cm : float) (g : Gender) : float :=
  match g with
  | Male => (50 + 2.3 * ((height_cm - 152.4) / 2.54))%float
  | Female => (45.5 + 2.3 * ((height_cm - 152.4) / 2.54))%float
  end.

Definition ideal_weight64 (height : float) (g : Gender) (u : UnitSystem)
  : float :=
  from_kg64 (devine64 (to_cm64 height u) g) u.

Definition mifflin64 (weight_kg height_cm years : float) (g : Gender) : float :=
  match g with
  | Male => (10 * weight_kg + 6.25 * height_cm - years + 5)%float
  | Female => (10 * weight_kg + 6.25 * height_cm - years - 161)%float
  end.

(** The same for any unit and gender strings, as the functions branch. *)
Definition weight_kg_double (weight : float) (unit : string) : float :=
  if (unit =? "Imperial")%string then (weight * 0.453592)%float else weight.

Definition height_m_double (height : float) (unit : string) : float :=
  if (unit =? "Imperial")%string
  then (height * 0.0254)%float else (height / 100)%float.

Definition ideal_weight_double (height : float) (gender unit : string) : float :=
  let height_cm :=
    if (unit =? "Imperial")%string then (height * 2.54)%float else height in
  let kg :=
    if (gender =? "Male")%string
    then (50 + 2.3 * ((height_cm - 152.4) / 2.54))%float
    else (45.5 + 2.3 * ((height_cm - 152.4) / 2.54))%float in
  if (unit =? "Imperial")%string then (kg * 2.20462)%float else kg.

Definition bmr_double (weight height years : float) (gender unit : string)
  : float :=
  let weight_kg :=
    if (unit =? "Imperial")%string then (weight * 0.453592)%float else weight in
  let height_cm :=
    if (unit =? "Imperial")%string then (height * 2.54)%float else height in
  if (gender =? "Male")%string
  then (10 * weight_kg + 6.25 * height_cm - years + 5)%float
  else (10 * weight_kg + 6.25 * height_cm - years - 161)%float.

(** * Rounding a double

    [r] is the double [x] rounded to one decimal: the double nearest to a
    decimal [n / 10] that is within 1/20 of the magnitude of [x], with the
    sign of [x]; an infinity or a NaN is left as it is. *)
Definition tenth_of_double (x r : float) : Prop :=
  (forall (s : bool) (q : Q),
      Binary64.exact x = Some (s, q) ->
      exists n : Z,
        (0 <= n)%Z /\ Qabs ((n # 10) - q) <= 1 # 20 /\
        r = Binary64.signed s (Binary64.nearest n 10)) /\
  (Binary64.exact x = None -> r = x).

(** [text] is the magnitude of the finite double [x] printed with one
    decimal: a numeral within 1/20 of it. *)
Definition shows_magnitude (x : float) (text : string) : Prop :=
  forall (s : bool) (q : Q),
    Binary64.exact x = Some (s, q) ->
    exists m : Q, decimal_1f text m /\ Qabs (m - q) <= 1 # 20.

(** * The rest of the main flow: scale chart and health information *)

(** ** The BMI scale chart *)

(** One horizontal bar of the scale: [go.Bar(y=[cat], x=[range_val - start],
    marker_color=color_val, base=...)]. *)
Record Bar : Type := mkBar {
  bar_y : string;
  bar_x : Q;
  marker_color : string;
  bar_base : Q
}.

(** [l[i]]: a negative index counts from the end; [None] stands for the
    IndexError of an index out of range. *)
Definition getitem {A : Type} (l : list A) (i : Z) : option A :=
  let n := Z.of_nat (List.length l) in
  if (0 <=? i)%Z then nth_error l (Z.to_nat i)
  else if (0 <=? n + i)%Z then nth_error l (Z.to_nat (n + i))
  else None.

(** [zip(a, b, c)]: stops with the shortest list. *)
Fixpoint zip3 {A B C : Type} (a : list A) (b : list B) (c : list C)
  : list (A * B * C) :=
  match a, b, c with
  | x :: a', y :: b', z :: c' => (x, y, z) :: zip3 a' b' c'
  | _, _, _ => []
  end.

(** [enumerate(l)], counting from [i]. *)
Fixpoint enumerate_from {A : Type} (i : Z) (l : list A) : list (Z * A) :=
  match l with
  | [] => []
  | x :: l' => (i, x) :: enumerate_from (i + 1) l'
  end.

Definition enumerate {A : Type} (l : list A) : list (Z * A) :=
  enumerate_from 0 l.

(** The body of the loop: [start = 0 if i == 0 else ranges[i-1]], then the
    bar with [base=start if i > 0 else 0]. *)
Definition add_trace (ranges : list Q) (item : Z * (string * Q * string))
  : option Bar :=
  let '(i, (cat, range_val, color_val)) := item in
  match (if (i =? 0)%Z then Some 0 else getitem ranges (i - 1)) with
  | Some start =>
      Some (mkBar cat (range_val - start) color_val
                  (if (0 <? i)%Z then start else 0))
  | None => None
  end.

(** The [for] loop: the bars in the order they are added; the first
    failing iteration ends it. *)
Fixpoint add_traces (ranges : list Q) (items : list (Z * (string * Q * string)))
  : option (list Bar) :=
  match items with
  | [] => Some []
  | item :: items' =>
      match add_trace ranges item with
      | Some bar =>
          match add_traces ranges items' with
          | Some bars => Some (bar :: bars)
          | None => None
          end
      | None => None
      end
  end.

Definition scale_bars (categories : list string) (ranges : list Q)
  (colors : list string) : option (list Bar) :=
  add_traces ranges (enumerate (zip3 categories ranges colors)).

(** The three lists of the script. *)
Definition chart_categories : list string :=
  ["Underweight"; "Normal"; "Overweight"; "Obese"]%string.
Definition chart_ranges : list Q := [18.5; 25; 30; 40].
Definition chart_colors : list string :=
  ["#3182ce"; "#38a169"; "#d69e2e"; "#e53e3e"]%string.

Definition bmi_scale : option (list Bar) :=
  scale_bars chart_categories chart_ranges chart_colors.

(** A value lies on a bar: from its base, up to its base plus its length. *)
Definition on_bar (bmi : Q) (b : Bar) : Prop :=
  bar_base b <= bmi /\ bmi < bar_base b + bar_x b.


(** ** The health information table *)

Record HealthInfo : Type := mkHealthInfo {
  risks : list string;
  benefits : list string
}.

(** The dict literal [health_info], in the order it is written. *)
Definition health_info : list (string * HealthInfo) :=
  [ ("Underweight",
     mkHealthInfo
       ["Weakened immune system"; "Osteoporosis risk"; "Delayed wound healing"]
       ["Lower risk of heart disease"; "Reduced joint stress"]);
    ("Normal Weight",
     mkHealthInfo
       ["Generally low health risks"]
       ["Optimal health status"; "Lower disease risk"; "Better energy levels"]);
    ("Overweight",
     mkHealthInfo
       ["Increased diabetes risk"; "High blood pressure"; "Sleep apnea"]
       ["Can be reversed with lifestyle changes"]);
    ("Obese",
     mkHealthInfo
       ["Heart disease"; "Type 2 diabetes"; "Stroke risk"; "Certain cancers"]
       ["Significant health improvements possible with weight loss"]) ]%string.

(** [d[key]] on a dict with distinct keys; [None] stands for KeyError. *)
Fixpoint dict_getitem {V : Type} (d : list (string * V)) (key : string)
  : option V :=
  match d with
  | [] => None
  | (k, v) :: d' => if (k =? key)%string then Some v else dict_getitem d' key
  end.

(** [current_info = health_info[category]] *)
Definition current_info (category : string) : option HealthInfo :=
  dict_getitem health_info category.

(** ** Orders used by the properties *)

(** The categories from the lowest to the highest. *)
Definition category_rank (c : Category) : nat :=
  match c with
  | Underweight => 0
  | NormalWeight => 1
  | Overweight => 2
  | Obese => 3
  end.

(** * Properties of the built-ins *)

(** Linear arithmetic with division by a literal. *)
Ltac qlra := unfold Qdiv in *; cbn [Qinv Qnum Qden] in *; lra.

Section Rounding.

Lemma lt_spec (x y : Q) : reflect (x < y) (Py.lt x y).
Proof.
  unfold Py.lt. destruct (x ?= y) eqn:E.
  - constructor. apply Qeq_alt in E. lra.
  - constructor. apply Qlt_alt in E. exact E.
  - constructor. apply Qgt_alt in E. lra.
Qed.

Lemma floor_bounds (x : Q) :
  inject_Z (Qfloor x) <= x /\ x < inject_Z (Qfloor x) + 1.
Proof.
  split; [apply Qfloor_le|].
  pose proof (Qlt_floor x) as H. rewrite inject_Z_plus in H. exact H.
Qed.

Lemma round_cases (x : Q) :
  (Py.round x = Qfloor x /\ x - inject_Z (Qfloor x) <= 1 # 2) \/
  (Py.round x = (Qfloor x + 1)%Z /\ 1 # 2 <= x - inject_Z (Qfloor x)).
Proof.
  unfold Py.round.
  destruct (Qcompare_spec (x - inject_Z (Qfloor x)) (1 # 2)) as [H|H|H].
  - destruct (Z.even (Qfloor x)); [left|right]; split; trivial; lra.
  - left; split; trivial; lra.
  - right; split; trivial; lra.
Qed.

Lemma round_error (x : Q) : Qabs (inject_Z (Py.round x) - x) <= 1 # 2.
Proof.
  apply Qabs_Qle_condition.
  destruct (floor_bounds x) as [Hlo Hhi].
  destruct (round_cases x) as [[-> H]|[-> H]];
    rewrite ?inject_Z_plus; change (inject_Z 1) with 1; lra.
Qed.

Lemma round_comp (x y : Q) : x == y -> Py.round x = Py.round y.
Proof.
  intros E. unfold Py.round.
  rewrite (Qfloor_comp _ _ E).
  assert (Ec : (x - inject_Z (Qfloor y) ?= 1 # 2) = (y - inject_Z (Qfloor y) ?= 1 # 2)).
  { apply Qcompare_comp; [rewrite E|]; reflexivity. }
  rewrite Ec. reflexivity.
Qed.

Lemma round_mono (x y : Q) : x <= y -> (Py.round x <= Py.round y)%Z.
Proof.
  intros Hxy.
  pose proof (Qfloor_resp_le _ _ Hxy) as Hf.
  destruct (Z.eq_dec (Qfloor x) (Qfloor y)) as [E|N].
  - unfold Py.round. rewrite E.
    destruct (Qcompare_spec (x - inject_Z (Qfloor y)) (1 # 2)) as [Hx|Hx|Hx];
    destruct (Qcompare_spec (y - inject_Z (Qfloor y)) (1 # 2)) as [Hy|Hy|Hy];
      try (exfalso; lra); destruct (Z.even (Qfloor y)); lia.
  - destruct (round_cases x) as [[-> _]|[-> _]];
    destruct (round_cases y) as [[-> _]|[-> _]]; lia.
Qed.

End Rounding.

Section Tenths.

Lemma round1_value (x : Q) :
  Py.round1 x == inject_Z (Py.round (x * 10)) * (1 # 10).
Proof. unfold Py.round1, Qeq; simpl. lia. Qed.

Lemma round1_error (x : Q) : Qabs (Py.round1 x - x) <= 1 # 20.
Proof.
  rewrite round1_value.
  pose proof (round_error (x * 10)) as H.
  apply Qabs_Qle_condition in H. apply Qabs_Qle_condition.
  set (n := inject_Z (Py.round (x * 10))) in *.
  lra.
Qed.

Lemma round1_comp (x y : Q) : x == y -> Py.round1 x = Py.round1 y.
Proof.
  intros E. unfold Py.round1. f_equal. apply round_comp. rewrite E. reflexivity.
Qed.

Lemma round1_mono (x y : Q) : x <= y -> Py.round1 x <= Py.round1 y.
Proof.
  intros H. unfold Py.round1, Qle; simpl.
  apply Z.mul_le_mono_nonneg_r; [lia|]. apply round_mono. lra.
Qed.

End Tenths.

Section Format.

Lemma round_zero : Py.round 0 = 0%Z.
Proof. reflexivity. Qed.

Lemma round_nonneg (x : Q) : 0 <= x -> (0 <= Py.round x)%Z.
Proof. intros H. rewrite <- round_zero. apply round_mono, H. Qed.

Lemma format_1f_decimal (x : Q) :
  0 <= x -> decimal_1f (Py.format_1f x) (Py.round1 x).
Proof.
  intros Hx. unfold Py.format_1f, Py.round1.
  destruct (lt_spec x 0) as [Hn|_]; [lra|].
  assert (Ht : (0 <= Py.round (x * 10))%Z) by (apply round_nonneg; lra).
  rewrite (Z.abs_eq _ Ht).
  set (t := Py.round (x * 10)) in *.
  exists (t / 10)%Z, (t mod 10)%Z. repeat split.
  - apply Z.div_pos; lia.
  - apply Z.mod_pos_bound; lia.
  - apply Z.mod_pos_bound; lia.
  - rewrite <- Z.div_mod by lia. reflexivity.
Qed.

Lemma rounded_to_tenth_round1 (x y : Q) :
  x == y -> rounded_to_tenth y (Py.round1 x).
Proof.
  intros E. split.
  - eexists. reflexivity.
  - rewrite <- E. apply round1_error.
Qed.

End Format.

(** * Properties of the built-ins on doubles *)

Section Doubles.

Lemma exact_nonneg (x : float) (s : bool) (q : Q) :
  Binary64.exact x = Some (s, q) -> 0 <= q.
Proof.
  unfold Binary64.exact.
  destruct (Prim2SF x) as [s'|s'| |s' m e]; try discriminate.
  - intros H. injection H as _ <-. discriminate.
  - intros H. injection H as _ <-.
    destruct e; unfold Qle; cbn [Qnum Qden]; lia.
Qed.

Lemma value_exact (x : float) (v : Q) :
  Binary64.value x = Some v ->
  exists (s : bool) (q : Q),
    Binary64.exact x = Some (s, q) /\ v = (if s then - q else q).
Proof.
  unfold Binary64.value.
  destruct (Binary64.exact x) as [[s q]|]; [|discriminate].
  intros H. injection H as <-. exists s, q. split; reflexivity.
Qed.

Lemma value_none (x : float) :
  Binary64.value x = None -> Binary64.exact x = None.
Proof.
  unfold Binary64.value.
  destruct (Binary64.exact x) as [[s q]|]; [discriminate|reflexivity].
Qed.

(** [round] of a finite double. *)
Lemma round_finite (x : float) (v : Q) :
  Binary64.value x = Some v ->
  exists n : Z, Binary64.round x = Ok n /\ rounded_to_integer v n.
Proof.
  intros H. destruct (value_exact x v H) as (s & q & E & ->).
  unfold Binary64.round. rewrite E.
  eexists. split; [reflexivity|].
  unfold rounded_to_integer.
  pose proof (round_error q) as He. apply Qabs_Qle_condition in He.
  apply Qabs_Qle_condition.
  destruct s; [rewrite inject_Z_opp|]; lra.
Qed.

(** [round] of an infinity or a NaN. *)
Lemma round_not_finite (x : float) :
  Binary64.value x = None ->
  Binary64.round x = Raise ValueError \/ Binary64.round x = Raise OverflowError.
Proof.
  intros H. apply value_none in H. unfold Binary64.round. rewrite H.
  destruct (PrimFloat.is_nan x); [left|right]; reflexivity.
Qed.

Lemma round_returns (x : float) :
  returns (Binary64.round x) <-> exists v : Q, Binary64.value x = Some v.
Proof.
  split.
  - intros [n H]. destruct (Binary64.value x) as [v|] eqn:E.
    + exists v. reflexivity.
    + destruct (round_not_finite x E) as [C|C]; rewrite C in H; discriminate H.
  - intros [v H]. destruct (round_finite x v H) as (n & Hn & _).
    exists n. exact Hn.
Qed.

(** [round(x, 1)] *)
Lemma round1_tenth (x : float) : tenth_of_double x (Binary64.round1 x).
Proof.
  split.
  - intros s q E. unfold Binary64.round1. rewrite E.
    exists (Py.round (q * 10)). split; [|split; [|reflexivity]].
    + apply round_nonneg. pose proof (exact_nonneg x s q E). lra.
    + apply (round1_error q).
  - intros E. unfold Binary64.round1. rewrite E. reflexivity.
Qed.

(** The [.1f] format of a finite double. *)
Lemma format_1f_finite (x : float) (s : bool) (q : Q) :
  Binary64.exact x = Some (s, q) ->
  Binary64.format_1f x = ((if s then "-" else "") ++ Py.format_1f q)%string.
Proof.
  intros E. pose proof (exact_nonneg x s q E) as Hq.
  unfold Binary64.format_1f, Py.format_1f. rewrite E.
  destruct (lt_spec q 0) as [Hn|_]; [lra|].
  rewrite Z.abs_eq by (apply round_nonneg; lra).
  reflexivity.
Qed.

(** [abs] clears the sign and keeps the magnitude. *)
Lemma exact_abs (x : float) :
  Binary64.exact (Binary64.abs x)
  = match Binary64.exact x with
    | Some (_, q) => Some (false, q)
    | None => None
    end.
Proof.
  unfold Binary64.exact, Binary64.abs. rewrite abs_spec.
  destruct (Prim2SF x); reflexivity.
Qed.

Lemma format_1f_abs (x : float) :
  shows_magnitude x (Binary64.format_1f (Binary64.abs x)).
Proof.
  intros s q E.
  assert (Ea : Binary64.exact (Binary64.abs x) = Some (false, q)).
  { rewrite exact_abs, E. reflexivity. }
  rewrite (format_1f_finite _ _ _ Ea). cbn [append].
  exists (Py.round1 q). split.
  - apply format_1f_decimal. apply (exact_nonneg x s q E).
  - apply round1_error.
Qed.

(** A divisor that is not zero. *)
Lemma truediv_by (x y : float) :
  PrimFloat.is_zero y = false ->
  Binary64.truediv x y = Ok (x / y)%float.
Proof. intros H. unfold Binary64.truediv. rewrite H. reflexivity. Qed.

(** The correctly rounded square is one of the candidates. *)
Lemma nearest_square_faithful : Binary64.faithful Binary64.nearest_square.
Proof.
  intros a. unfold Binary64.square_candidates, Binary64.nearest_square.
  destruct (Binary64.exact (a * a)%float) as [[s er]|];
    [|right; left; reflexivity].
  destruct (Binary64.exact a) as [[s' ea]|]; [|right; left; reflexivity].
  destruct (er ?= ea * ea); [left|left|right; left]; reflexivity.
Qed.

(** [x ** 2] of a finite base other than 0, 1 and -1. *)
Lemma pow2_regular (pow_2 : float -> float) (x : float) :
  PrimFloat.is_nan x = false ->
  PrimFloat.is_infinity x = false ->
  PrimFloat.is_zero x = false ->
  PrimFloat.eqb (PrimFloat.abs x) 1 = false ->
  Binary64.pow2 pow_2 x
  = (if PrimFloat.is_infinity (pow_2 (PrimFloat.abs x))
     then Raise OverflowError else Ok (pow_2 (PrimFloat.abs x))).
Proof.
  intros H1 H2 H3 H4. unfold Binary64.pow2. rewrite H1, H2, H3, H4.
  reflexivity.
Qed.

(** The only error of [x ** 2] is the overflow. *)
Lemma pow2_raises (pow_2 : float -> float) (x : float) (e : exn) :
  Binary64.pow2 pow_2 x = Raise e -> e = OverflowError.
Proof.
  unfold Binary64.pow2.
  destruct (PrimFloat.is_nan x); [discriminate|].
  destruct (PrimFloat.is_infinity x); [discriminate|].
  destruct (PrimFloat.is_zero x); [discriminate|].
  destruct (PrimFloat.eqb (PrimFloat.abs x) 1); [discriminate|].
  destruct (PrimFloat.is_infinity (pow_2 (PrimFloat.abs x)));
    [|discriminate].
  intros H. injection H as <-. reflexivity.
Qed.

End Doubles.

(** The cases of a faithful [pow] at a closed argument: one goal for each
    candidate. *)
Ltac libm_cases Hf a :=
  let Hc := fresh "Hc" in
  pose proof (Hf a) as Hc; vm_compute in Hc;
  repeat (destruct Hc as [Hc|Hc]; [rewrite <- Hc; clear Hc|]);
  [..|contradiction].

(** * The body mass index *)

Section Bmi.

Variable pow_2 : float -> float.
Variables (weight height : float).

(** The statements of [calculate_bmi] after the conversion, for any unit
    string. *)
Lemma calculate_bmi_steps (unit : string) :
  Binary64.calculate_bmi pow_2 weight height unit
  = (square <- Binary64.pow2 pow_2 (height_m_double height unit) ;;
     bmi <- Binary64.truediv (weight_kg_double weight unit) square ;;
     Ok (Binary64.round1 bmi)).
Proof.
  unfold Binary64.calculate_bmi, height_m_double, weight_kg_double.
  destruct (unit =? "Imperial")%string; cbn [bind]; [reflexivity|].
  rewrite (truediv_by height 100) by reflexivity. reflexivity.
Qed.

Lemma height_m_double_unit (u : UnitSystem) :
  height_m_double height (unit_name u) = to_m64 height u.
Proof. destruct u; reflexivity. Qed.

Lemma weight_kg_double_unit (u : UnitSystem) :
  weight_kg_double weight (unit_name u) = to_kg64 weight u.
Proof. destruct u; reflexivity. Qed.

(** The three outcomes, by the square. *)
Lemma calculate_bmi_outcome (unit : string) :
  match Binary64.pow2 pow_2 (height_m_double height unit) with
  | Raise e =>
      Binary64.calculate_bmi pow_2 weight height unit = Raise e
  | Ok square =>
      if PrimFloat.is_zero square
      then Binary64.calculate_bmi pow_2 weight height unit
           = Raise ZeroDivisionError
      else Binary64.calculate_bmi pow_2 weight height unit
           = Ok (Binary64.round1 (weight_kg_double weight unit / square)%float)
  end.
Proof.
  rewrite calculate_bmi_steps.
  destruct (Binary64.pow2 pow_2 (height_m_double height unit))
    as [square|e]; cbn [bind]; [|reflexivity].
  unfold Binary64.truediv.
  destruct (PrimFloat.is_zero square); reflexivity.
Qed.

End Bmi.

(** C1, as stated, fails on a positive weight and height: for 67.2 kg and
    160 cm [calculate_bmi] returns 26.2, whatever the library's [pow],
    while the quotient weightKg / heightM² of these two doubles is above
    26.25, more than 1/20 away from 26.2 (and from the double returned):
    the division is rounded to 26.25 or just below it before [round] sees
    it. *)
Lemma calculate_bmi_misses_the_quotient :
  Binary64.for_every_libm
    (fun pow_2 => Binary64.calculate_bmi pow_2 67.2 160 "Metric" = Ok 26.2%float) /\
  exists w h r : Q,
    Binary64.value 67.2 = Some w /\ Binary64.value 160 = Some h /\
    Binary64.value 26.2 = Some r /\
    0 < w /\ 0 < h /\
    1 # 20 < Qabs (26.2 - bmi_formula (normalize w h Metric)) /\
    1 # 20 < Qabs (r - bmi_formula (normalize w h Metric)).
Proof.
  split.
  - intros pow_2 Hf. rewrite calculate_bmi_steps.
    change (height_m_double 160 "Metric") with 1.6%float.
    rewrite pow2_regular by reflexivity.
    change (PrimFloat.abs 1.6) with 1.6%float.
    libm_cases Hf 1.6%float; vm_compute; reflexivity.
  - do 3 eexists. repeat split; vm_compute; reflexivity.
Qed.

(** C1, amended. For every weight and height and either unit,
    [calculate_bmi] evaluates heightM² and weightKg / heightM² in doubles
    (weightKg = weight or weight × 0.453592, heightM = height / 100 or
    height × 0.0254, each operation rounded) and returns the double quotient
    rounded to one decimal; it raises OverflowError when the square
    overflows and ZeroDivisionError when the square is zero.  For 70 kg and
    175 cm it returns 22.9, whatever the library's [pow]. *)
Theorem calculate_bmi_rounded_quotient :
  (forall (pow_2 : float -> float) (weight height : float) (u : UnitSystem),
      match Binary64.pow2 pow_2 (to_m64 height u) with
      | Raise e =>
          e = OverflowError /\
          Binary64.calculate_bmi pow_2 weight height (unit_name u) = Raise e
      | Ok square =>
          if PrimFloat.is_zero square
          then Binary64.calculate_bmi pow_2 weight height (unit_name u)
               = Raise ZeroDivisionError
          else exists bmi : float,
              Binary64.calculate_bmi pow_2 weight height (unit_name u) = Ok bmi /\
              tenth_of_double (to_kg64 weight u / square)%float bmi
      end) /\
  Binary64.for_every_libm
    (fun pow_2 => Binary64.calculate_bmi pow_2 70 175 "Metric" = Ok 22.9%float).
Proof.
  split.
  - intros pow_2 weight height u.
    pose proof (calculate_bmi_outcome pow_2 weight height (unit_name u)) as H.
    rewrite height_m_double_unit, weight_kg_double_unit in H.
    destruct (Binary64.pow2 pow_2 (to_m64 height u)) as [square|e] eqn:E.
    + destruct (PrimFloat.is_zero square); [exact H|].
      eexists. split; [exact H | apply round1_tenth].
    + split; [apply (pow2_raises pow_2 _ e E) | exact H].
  - intros pow_2 Hf. rewrite calculate_bmi_steps.
    change (height_m_double 175 "Metric") with 1.75%float.
    rewrite pow2_regular by reflexivity.
    change (PrimFloat.abs 1.75) with 1.75%float.
    libm_cases Hf 1.75%float; vm_compute; reflexivity.
Qed.

Lemma calculate_bmi_rounded_quotient_witness :
  Binary64.calculate_bmi Binary64.nearest_square 70 175 "Metric" = Ok 22.9%float.
Proof.
  destruct calculate_bmi_rounded_quotient as (_ & H).
  apply (H Binary64.nearest_square nearest_square_faithful).
Defined.

(** * Categories and colours *)

Section Thresholds.

(** The four cases of the two threshold chains, with the branch taken. *)
Lemma threshold_cases (bmi : Q) :
  (bmi < 18.5 /\ get_bmi_category bmi = "Underweight"%string
     /\ get_bmi_color bmi = "#3182ce"%string) \/
  (18.5 <= bmi /\ bmi < 25 /\ get_bmi_category bmi = "Normal Weight"%string
     /\ get_bmi_color bmi = "#38a169"%string) \/
  (25 <= bmi /\ bmi < 30 /\ get_bmi_category bmi = "Overweight"%string
     /\ get_bmi_color bmi = "#d69e2e"%string) \/
  (30 <= bmi /\ get_bmi_category bmi = "Obese"%string
     /\ get_bmi_color bmi = "#e53e3e"%string).
Proof.
  unfold get_bmi_category, get_bmi_color.
  destruct (lt_spec bmi 18.5) as [H1|H1]; [left; auto|].
  destruct (lt_spec bmi 25) as [H2|H2]; [right; left; repeat split; auto; lra|].
  destruct (lt_spec bmi 30) as [H3|H3];
    right; right; [left|right]; repeat split; auto; lra.
Qed.

End Thresholds.

(** C2. [get_bmi_category] returns Underweight exactly when bmi < 18.5,
    Normal Weight exactly when 18.5 <= bmi < 25, Overweight exactly when
    25 <= bmi < 30 and Obese exactly when bmi >= 30; a boundary value falls
    in the upper category: 18.5 is Normal Weight, 25.0 is Overweight and
    30.0 is Obese (24.9 and 29.9 stay below), the same on doubles. *)
Theorem get_bmi_category_thresholds :
  (forall bmi : Q,
      (get_bmi_category bmi = "Underweight"%string <-> bmi < 18.5) /\
      (get_bmi_category bmi = "Normal Weight"%string <-> 18.5 <= bmi /\ bmi < 25) /\
      (get_bmi_category bmi = "Overweight"%string <-> 25 <= bmi /\ bmi < 30) /\
      (get_bmi_category bmi = "Obese"%string <-> 30 <= bmi)) /\
  get_bmi_category 18.5 = category_name NormalWeight /\
  get_bmi_category 24.9 = category_name NormalWeight /\
  get_bmi_category 25.0 = category_name Overweight /\
  get_bmi_category 29.9 = category_name Overweight /\
  get_bmi_category 30.0 = category_name Obese /\
  map Binary64.get_bmi_category [18.5; 24.9; 25.0; 29.9; 30.0]%float
  = map category_name [NormalWeight; NormalWeight; Overweight; Overweight; Obese].
Proof.
  split; [|repeat split; vm_compute; reflexivity].
  intros bmi.
  destruct (threshold_cases bmi)
    as [(H & -> & _)|[(H & H' & -> & _)|[(H & H' & -> & _)|(H & -> & _)]]];
    repeat split; intros; try discriminate; try lra; tauto.
Qed.

(** C10. [get_bmi_color] returns the colour of the category that
    [get_bmi_category] returns (Underweight #3182ce, Normal Weight #38a169,
    Overweight #d69e2e, Obese #e53e3e): the two functions cut the line at
    the same thresholds, so two values get the same colour exactly when
    they get the same category. *)
Theorem get_bmi_color_matches_category :
  (forall bmi : Q,
      exists c : Category,
        get_bmi_category bmi = category_name c /\
        get_bmi_color bmi = category_color c) /\
  (forall b1 b2 : Q,
      get_bmi_category b1 = get_bmi_category b2 <->
      get_bmi_color b1 = get_bmi_color b2).
Proof.
  split.
  - intros bmi.
    destruct (threshold_cases bmi)
      as [(_ & -> & ->)|[(_ & _ & -> & ->)|[(_ & _ & -> & ->)|(_ & -> & ->)]]].
    + exists Underweight; split; reflexivity.
    + exists NormalWeight; split; reflexivity.
    + exists Overweight; split; reflexivity.
    + exists Obese; split; reflexivity.
  - intros b1 b2.
    destruct (threshold_cases b1)
      as [(_ & -> & ->)|[(_ & _ & -> & ->)|[(_ & _ & -> & ->)|(_ & -> & ->)]]];
    destruct (threshold_cases b2)
      as [(_ & -> & ->)|[(_ & _ & -> & ->)|[(_ & _ & -> & ->)|(_ & -> & ->)]]];
      split; intros E; try reflexivity; discriminate E.
Qed.

(** * Ideal weight and basal metabolic rate *)

Section IdealWeight.

(** [calculate_ideal_weight] rounds the double of its formula, for any
    gender and unit strings. *)
Lemma calculate_ideal_weight_steps (height : float) (gender unit : string) :
  Binary64.calculate_ideal_weight height gender unit
  = Binary64.round (ideal_weight_double height gender unit).
Proof.
  unfold Binary64.calculate_ideal_weight, ideal_weight_double.
  rewrite !truediv_by by reflexivity.
  destruct (gender =? "Male")%string, (unit =? "Imperial")%string;
    reflexivity.
Qed.

Lemma ideal_weight_double_names (height : float) (g : Gender) (u : UnitSystem) :
  ideal_weight_double height (gender_name g) (unit_name u)
  = ideal_weight64 height g u.
Proof. destruct g, u; reflexivity. Qed.

(** [calculate_bmr] converts [5 * age] and rounds the double of its
    formula, for any gender and unit strings. *)
Lemma calculate_bmr_steps (weight height : float) (age : Z)
  (gender unit : string) :
  Binary64.calculate_bmr weight height age gender unit
  = (years <- Binary64.of_int (5 * age) ;;
     Binary64.round (bmr_double weight height years gender unit)).
Proof. reflexivity. Qed.

Lemma bmr_double_names (weight height years : float) (g : Gender)
  (u : UnitSystem) :
  bmr_double weight height years (gender_name g) (unit_name u)
  = mifflin64 (to_kg64 weight u) (to_cm64 height u) years g.
Proof. destruct g, u; reflexivity. Qed.

(** The ages of the age widget: [5 * age] is a double. *)
Definition years_checked (age : Z) : bool :=
  match Binary64.of_int (5 * age) with
  | Ok years =>
      match Binary64.value years with
      | Some v => Qeq_bool v (inject_Z (5 * age))
      | None => false
      end
  | Raise _ => false
  end.

Lemma years_of_age (age : Z) :
  (1 <= age <= 120)%Z ->
  exists (years : float) (v : Q),
    Binary64.of_int (5 * age) = Ok years /\
    Binary64.value years = Some v /\ v == inject_Z (5 * age).
Proof.
  intros Ha.
  assert (Hall : forallb years_checked (map Z.of_nat (seq 1 120)) = true)
    by (vm_compute; reflexivity).
  rewrite forallb_forall in Hall.
  assert (Hin : In age (map Z.of_nat (seq 1 120))).
  { apply in_map_iff. exists (Z.to_nat age). split; [lia|].
    apply in_seq. lia. }
  specialize (Hall age Hin). unfold years_checked in Hall.
  destruct (Binary64.of_int (5 * age)) as [years|e]; [|discriminate].
  destruct (Binary64.value years) as [v|] eqn:Ev; [|discriminate].
  exists years, v.
  split; [reflexivity|]. split; [exact Ev|]. apply Qeq_bool_iff, Hall.
Qed.

End IdealWeight.

(** C5, as stated, fails on a positive height: for 177.8 cm and Female
    [calculate_ideal_weight] returns 68, while the Devine value
    45.5 + 2.3 × ((heightCm − 152.4) / 2.54) of that double is above 68.5,
    more than 1/2 away from 68: the double operations land on 68.5 and
    [round] takes the tie to the even integer. *)
Lemma calculate_ideal_weight_misses_devine :
  Binary64.calculate_ideal_weight 177.8 "Female" "Metric" = Ok 68%Z /\
  exists h : Q,
    Binary64.value 177.8 = Some h /\ 0 < h /\
    1 # 2 < Qabs (68 - ideal_weight_formula h Female Metric).
Proof.
  split; [vm_compute; reflexivity|].
  eexists. repeat split; vm_compute; reflexivity.
Qed.

(** C5, amended. For every height, gender Male or Female and either unit,
    [calculate_ideal_weight] evaluates the Devine formula in doubles
    (50 or 45.5 + 2.3 × ((heightCm − 152.4) / 2.54), times 2.20462 for
    Imperial, each operation rounded) and returns that double rounded to
    the nearest integer; it raises when the double is an infinity or a NaN.
    For 170 cm and Male it returns 66. *)
Theorem calculate_ideal_weight_devine :
  (forall (height : float) (g : Gender) (u : UnitSystem),
      Binary64.calculate_ideal_weight height (gender_name g) (unit_name u)
      = Binary64.round (ideal_weight64 height g u) /\
      (forall v : Q,
          Binary64.value (ideal_weight64 height g u) = Some v ->
          exists n : Z,
            Binary64.calculate_ideal_weight height (gender_name g) (unit_name u)
            = Ok n /\
            rounded_to_integer v n) /\
      (Binary64.value (ideal_weight64 height g u) = None ->
       raises (Binary64.calculate_ideal_weight height (gender_name g) (unit_name u)))) /\
  Binary64.calculate_ideal_weight 170 "Male" "Metric" = Ok 66%Z.
Proof.
  split; [|vm_compute; reflexivity].
  intros height g u.
  rewrite calculate_ideal_weight_steps, ideal_weight_double_names.
  split; [reflexivity|]. split.
  - apply round_finite.
  - intros H. destruct (round_not_finite _ H) as [E|E];
      rewrite E; eexists; reflexivity.
Qed.

Lemma calculate_ideal_weight_devine_witness :
  exists (v : Q) (n : Z),
    Binary64.value (ideal_weight64 67 Female Imperial) = Some v /\
    Binary64.calculate_ideal_weight 67 "Female" "Imperial" = Ok n /\
    rounded_to_integer v n.
Proof.
  destruct calculate_ideal_weight_devine as (H & _).
  destruct (H 67%float Female Imperial) as (_ & Hv & _).
  destruct (Binary64.value (ideal_weight64 67 Female Imperial)) as [v|] eqn:E;
    [|vm_compute in E; discriminate E].
  destruct (Hv v eq_refl) as (n & Hn & Hr).
  exists v, n. split; [reflexivity|]. split; assumption.
Defined.

(** C6, as stated, fails on positive inputs with an age from 1 to 120: for
    70 kg, 180.4 cm, 30 years and Male [calculate_bmr] returns 1682, while
    the Mifflin-St Jeor value of these doubles is above 1682.5, more than
    1/2 away from 1682: 6.25 × 180.4 is rounded to 1127.5, the sum is
    1682.5 and [round] takes the tie to the even integer. *)
Lemma calculate_bmr_misses_mifflin :
  Binary64.calculate_bmr 70 180.4 30 "Male" "Metric" = Ok 1682%Z /\
  exists w h : Q,
    Binary64.value 70 = Some w /\ Binary64.value 180.4 = Some h /\
    0 < w /\ 0 < h /\
    1 # 2 < Qabs (1682
                  - mifflin (weightKg (normalize w h Metric))
                            (heightCm (normalize w h Metric)) 30 Male).
Proof.
  split; [vm_compute; reflexivity|].
  do 2 eexists. repeat split; vm_compute; reflexivity.
Qed.

(** C6, amended. For every weight and height, an age from 1 to 120, gender
    Male or Female and either unit, [calculate_bmr] evaluates the
    Mifflin-St Jeor formula in doubles (10×weightKg + 6.25×heightCm − 5×age
    + 5 or − 161, each operation rounded, 5×age being exact) and returns
    that double rounded to the nearest integer; it raises when the double
    is an infinity or a NaN.  For 70 kg, 175 cm, 25 years and Male it
    returns 1674. *)
Theorem calculate_bmr_mifflin :
  (forall (weight height : float) (age : Z) (g : Gender) (u : UnitSystem),
      (1 <= age <= 120)%Z ->
      exists (years : float) (y : Q),
        Binary64.of_int (5 * age) = Ok years /\
        Binary64.value years = Some y /\ y == inject_Z (5 * age) /\
        let bmr := mifflin64 (to_kg64 weight u) (to_cm64 height u) years g in
        Binary64.calculate_bmr weight height age (gender_name g) (unit_name u)
        = Binary64.round bmr /\
        (forall v : Q,
            Binary64.value bmr = Some v ->
            exists n : Z,
              Binary64.calculate_bmr weight height age (gender_name g) (unit_name u)
              = Ok n /\
              rounded_to_integer v n) /\
        (Binary64.value bmr = None ->
         raises (Binary64.calculate_bmr weight height age (gender_name g) (unit_name u)))) /\
  Binary64.calculate_bmr 70 175 25 "Male" "Metric" = Ok 1674%Z.
Proof.
  split; [|vm_compute; reflexivity].
  intros weight height age g u Ha.
  destruct (years_of_age age Ha) as (years & y & Hy & Hv & Ey).
  exists years, y. split; [exact Hy|]. split; [exact Hv|]. split; [exact Ey|].
  cbv zeta.
  rewrite calculate_bmr_steps, Hy. cbn [bind]. rewrite bmr_double_names.
  split; [reflexivity|]. split.
  - apply round_finite.
  - intros H. destruct (round_not_finite _ H) as [E|E];
      rewrite E; eexists; reflexivity.
Qed.

Lemma calculate_bmr_mifflin_witness :
  exists (years : float) (y : Q),
    Binary64.of_int (5 * 25) = Ok years /\
    Binary64.value years = Some y /\ y == inject_Z (5 * 25) /\
    Binary64.calculate_bmr 154 67 25 "Female" "Imperial"
    = Binary64.round (mifflin64 (to_kg64 154 Imperial) (to_cm64 67 Imperial) years Female).
Proof.
  destruct calculate_bmr_mifflin as (H & _).
  destruct (H 154%float 67%float 25%Z Female Imperial) as (years & y & H1 & H2 & H3 & H4 & _).
  - lia.
  - exists years, y. repeat split; assumption.
Defined.

(** * Recommendations and enumerated arguments *)

(** C8. [get_recommendations] returns the same ordered list of advice
    strings whatever the age and the gender: the list depends on the
    category alone. *)
Theorem get_recommendations_ignores_age_gender :
  forall (bmi_category : string) (age age' : Z) (gender gender' : string),
    get_recommendations bmi_category age gender
    = get_recommendations bmi_category age' gender'.
Proof.
  intros bmi_category age age' gender gender'.
  unfold get_recommendations.
  destruct (bmi_category =? "Underweight")%string; [reflexivity|].
  destruct (bmi_category =? "Normal Weight")%string; [reflexivity|].
  destruct (bmi_category =? "Overweight")%string; reflexivity.
Qed.

Section Fallbacks.

Lemma not_imperial (unit : string) :
  unit <> "Imperial"%string -> (unit =? "Imperial")%string = false.
Proof. apply String.eqb_neq. Qed.


End Fallbacks.



(** * The weight goal *)

Section Goal.

Variable pow_2 : float -> float.
Variables (weight height : float) (u : UnitSystem).

(** The target weight: target index × heightM², in the unit of the input,
    in doubles. *)
Lemma target_weight_steps (bmi_target : float) :
  Binary64.target_weight pow_2 bmi_target height (unit_name u)
  = (square <- Binary64.pow2 pow_2 (to_m64 height u) ;;
     Ok (from_kg64 (bmi_target * square)%float u)).
Proof.
  unfold Binary64.target_weight.
  destruct u; cbv [unit_name String.eqb Ascii.eqb Bool.eqb to_m64 from_kg64].
  - rewrite (truediv_by height 100) by reflexivity. reflexivity.
  - reflexivity.
Qed.

Lemma weight_unit_label : weight_unit (unit_name u) = unit_label u.
Proof. destruct u; reflexivity. Qed.

(** The three branches of the block, by the category string. *)
Lemma weight_goal_gain :
  Binary64.weight_goal pow_2 "Underweight" (unit_name u) weight height
  = (target <- Binary64.target_weight pow_2 18.5 height (unit_name u) ;;
     Ok (shown Gain (Binary64.format_1f (Binary64.abs (target - weight)%float))
               (unit_label u))).
Proof.
  unfold Binary64.weight_goal. cbn [String.eqb Ascii.eqb Bool.eqb].
  rewrite weight_unit_label. reflexivity.
Qed.

Lemma weight_goal_lose (c : Category) :
  c = Overweight \/ c = Obese ->
  Binary64.weight_goal pow_2 (category_name c) (unit_name u) weight height
  = (target <- Binary64.target_weight pow_2 24.9 height (unit_name u) ;;
     Ok (shown Lose (Binary64.format_1f (Binary64.abs (weight - target)%float))
               (unit_label u))).
Proof.
  intros [-> | ->]; unfold Binary64.weight_goal;
    cbn [category_name existsb orb String.eqb Ascii.eqb Bool.eqb];
    rewrite weight_unit_label; reflexivity.
Qed.

End Goal.

(** C4, as stated, fails: for 100.05 kg and 200 cm the BMI is 25.0, the
    category Overweight, and the goal shown is -0.5 kg, whatever the
    library's [pow]; the magnitude |weight − 24.9 × heightM²| of these
    doubles is below 0.45, more than 1/20 away from 0.5: the double 24.9 is
    below 24.9, so the double target is below 99.6. *)
Lemma weight_goal_misses_the_magnitude :
  Binary64.for_every_libm
    (fun pow_2 =>
       Binary64.calculate_bmi pow_2 100.05 200 "Metric" = Ok 25%float /\
       Binary64.get_bmi_category 25 = "Overweight"%string /\
       Binary64.weight_goal pow_2 "Overweight" "Metric" 100.05 200
       = Ok "-0.5 kg"%string) /\
  exists w h : Q,
    Binary64.value 100.05 = Some w /\ Binary64.value 200 = Some h /\
    1 # 20 < Qabs (0.5 - Qabs (w - target_formula 24.9 h Metric)).
Proof.
  split.
  - intros pow_2 Hf.
    assert (Hsq : Binary64.pow2 pow_2 2 = Ok 4%float).
    { rewrite pow2_regular by reflexivity.
      change (PrimFloat.abs 2) with 2%float.
      libm_cases Hf 2%float; vm_compute; reflexivity. }
    split; [|split].
    + rewrite calculate_bmi_steps.
      change (height_m_double 200 "Metric") with 2%float.
      rewrite Hsq. vm_compute. reflexivity.
    + vm_compute. reflexivity.
    + change (Binary64.weight_goal pow_2 "Overweight" "Metric" 100.05 200)
        with (Binary64.weight_goal pow_2 (category_name Overweight)
                (unit_name Metric) 100.05 200).
      rewrite (weight_goal_lose pow_2 100.05 200 Metric Overweight)
        by (left; reflexivity).
      rewrite target_weight_steps.
      change (to_m64 200 Metric) with 2%float.
      rewrite Hsq. vm_compute. reflexivity.
  - do 2 eexists. repeat split; vm_compute; reflexivity.
Qed.

(** C4, amended. For either unit, the weight-goal block evaluates the
    target in doubles (18.5 or 24.9 × heightM², times 2.20462 for Imperial,
    each operation rounded) and shows: for Underweight, direction Gain (a
    leading +) with the double |target − weight| printed with one decimal;
    for Overweight or Obese, direction Lose (a leading -) with the double
    |weight − target| printed with one decimal; for Normal Weight, Maintain.
    It raises OverflowError when heightM² overflows.  For 50 kg and 170 cm,
    Underweight, it shows +3.5 kg, whatever the library's [pow]. *)
Theorem weight_goal_by_category :
  (forall (pow_2 : float -> float) (weight height : float) (u : UnitSystem),
      (forall bmi_target : float,
          Binary64.target_weight pow_2 bmi_target height (unit_name u)
          = (square <- Binary64.pow2 pow_2 (to_m64 height u) ;;
             Ok (from_kg64 (bmi_target * square)%float u))) /\
      match Binary64.target_weight pow_2 18.5 height (unit_name u) with
      | Raise e =>
          Binary64.weight_goal pow_2 (category_name Underweight) (unit_name u)
            weight height = Raise e
      | Ok target =>
          exists text : string,
            Binary64.weight_goal pow_2 (category_name Underweight) (unit_name u)
              weight height = Ok (shown Gain text (unit_label u)) /\
            shows_magnitude (target - weight)%float text
      end /\
      (forall c : Category,
          c = Overweight \/ c = Obese ->
          match Binary64.target_weight pow_2 24.9 height (unit_name u) with
          | Raise e =>
              Binary64.weight_goal pow_2 (category_name c) (unit_name u)
                weight height = Raise e
          | Ok target =>
              exists text : string,
                Binary64.weight_goal pow_2 (category_name c) (unit_name u)
                  weight height = Ok (shown Lose text (unit_label u)) /\
                shows_magnitude (weight - target)%float text
          end) /\
      Binary64.weight_goal pow_2 (category_name NormalWeight) (unit_name u)
        weight height = Ok (shown Maintain "" "")) /\
  Binary64.for_every_libm
    (fun pow_2 =>
       Binary64.calculate_bmi pow_2 50 170 "Metric" = Ok 17.3%float /\
       Binary64.get_bmi_category 17.3 = category_name Underweight /\
       Binary64.weight_goal pow_2 "Underweight" "Metric" 50 170
       = Ok "+3.5 kg"%string).
Proof.
  split.
  - intros pow_2 weight height u.
    split; [intros b; apply target_weight_steps|].
    split; [|split; [|reflexivity]].
    + cbn [category_name]. rewrite weight_goal_gain.
      destruct (Binary64.target_weight pow_2 18.5 height (unit_name u))
        as [target|e]; cbn [bind]; [|reflexivity].
      eexists. split; [reflexivity | apply format_1f_abs].
    + intros c Hc. rewrite (weight_goal_lose pow_2 weight height u c Hc).
      destruct (Binary64.target_weight pow_2 24.9 height (unit_name u))
        as [target|e]; cbn [bind]; [|reflexivity].
      eexists. split; [reflexivity | apply format_1f_abs].
  - intros pow_2 Hf.
    assert (Hsq : exists square : float,
               Binary64.pow2 pow_2 1.7 = Ok square /\
               In square (Binary64.square_candidates 1.7)).
    { rewrite pow2_regular by reflexivity.
      change (PrimFloat.abs 1.7) with 1.7%float.
      pose proof (Hf 1.7%float) as Hc.
      destruct (PrimFloat.is_infinity (pow_2 1.7%float)) eqn:E.
      - exfalso. vm_compute in Hc.
        destruct Hc as [Hc|[Hc|[]]]; rewrite <- Hc in E; vm_compute in E;
          discriminate E.
      - eexists. split; [reflexivity | exact Hc]. }
    destruct Hsq as (square & Hsq & Hin).
    split; [|split].
    + rewrite calculate_bmi_steps.
      change (height_m_double 170 "Metric") with 1.7%float.
      rewrite Hsq. cbn [bind].
      vm_compute in Hin. destruct Hin as [<-|[<-|[]]]; vm_compute; reflexivity.
    + vm_compute. reflexivity.
    + change (Binary64.weight_goal pow_2 "Underweight" "Metric" 50 170)
        with (Binary64.weight_goal pow_2 "Underweight" (unit_name Metric) 50 170).
      rewrite (weight_goal_gain pow_2 50 170 Metric).
      rewrite target_weight_steps.
      change (to_m64 170 Metric) with 1.7%float.
      rewrite Hsq. cbn [bind].
      vm_compute in Hin. destruct Hin as [<-|[<-|[]]]; vm_compute; reflexivity.
Qed.

Lemma weight_goal_by_category_witness :
  exists text : string,
    Binary64.weight_goal Binary64.nearest_square "Obese" "Imperial" 300 67
    = Ok (shown Lose text "lbs").
Proof.
  destruct weight_goal_by_category as (H & _).
  destruct (H Binary64.nearest_square 300%float 67%float Imperial)
    as (_ & _ & Hl & _).
  specialize (Hl Obese (or_intror eq_refl)).
  destruct (Binary64.target_weight Binary64.nearest_square 24.9 67 (unit_name Imperial))
    as [target|e] eqn:E; [|vm_compute in E; discriminate E].
  destruct Hl as (text & Hg & _).
  exists text. exact Hg.
Defined.

(** * Input validation *)

Section Outcomes.

Variable pow_2 : float -> float.

Lemma calculate_bmi_returns (weight height : float) (unit : string) :
  returns (Binary64.calculate_bmi pow_2 weight height unit) <->
  exists square : float,
    Binary64.pow2 pow_2 (height_m_double height unit) = Ok square /\
    PrimFloat.is_zero square = false.
Proof.
  pose proof (calculate_bmi_outcome pow_2 weight height unit) as H.
  destruct (Binary64.pow2 pow_2 (height_m_double height unit)) as [square|e].
  - destruct (PrimFloat.is_zero square) eqn:Z; split.
    + intros [b Hb]. rewrite H in Hb. discriminate Hb.
    + intros (sq & E & Hz). injection E as <-. rewrite Z in Hz. discriminate Hz.
    + intros _. exists square. split; [reflexivity | exact Z].
    + intros _. eexists. exact H.
  - split.
    + intros [b Hb]. rewrite H in Hb. discriminate Hb.
    + intros (sq & E & _). discriminate E.
Qed.

Lemma calculate_bmi_raises (weight height : float) (unit : string) (e : exn) :
  Binary64.calculate_bmi pow_2 weight height unit = Raise e ->
  (e = OverflowError /\
   Binary64.pow2 pow_2 (height_m_double height unit) = Raise OverflowError) \/
  (e = ZeroDivisionError /\
   exists square : float,
     Binary64.pow2 pow_2 (height_m_double height unit) = Ok square /\
     PrimFloat.is_zero square = true).
Proof.
  pose proof (calculate_bmi_outcome pow_2 weight height unit) as H.
  destruct (Binary64.pow2 pow_2 (height_m_double height unit))
    as [square|e'] eqn:E.
  - destruct (PrimFloat.is_zero square) eqn:Z; rewrite H; intros He.
    + injection He as <-. right. split; [reflexivity|].
      exists square. split; [reflexivity | exact Z].
    + discriminate He.
  - rewrite H. intros He. injection He as <-.
    left. pose proof (pow2_raises pow_2 _ _ E) as ->. split; reflexivity.
Qed.

Lemma calculate_bmi_zero_height (weight : float) (unit : string) :
  Binary64.calculate_bmi pow_2 weight 0 unit = Raise ZeroDivisionError.
Proof.
  rewrite calculate_bmi_steps. unfold height_m_double.
  destruct (unit =? "Imperial")%string; reflexivity.
Qed.

End Outcomes.

Section RoundedOutcomes.

Lemma calculate_ideal_weight_returns (height : float) (gender unit : string) :
  returns (Binary64.calculate_ideal_weight height gender unit) <->
  exists v : Q,
    Binary64.value (ideal_weight_double height gender unit) = Some v.
Proof. rewrite calculate_ideal_weight_steps. apply round_returns. Qed.

Lemma calculate_bmr_returns (weight height : float) (age : Z)
  (gender unit : string) :
  returns (Binary64.calculate_bmr weight height age gender unit) <->
  exists (years : float) (v : Q),
    Binary64.of_int (5 * age) = Ok years /\
    Binary64.value (bmr_double weight height years gender unit) = Some v.
Proof.
  rewrite calculate_bmr_steps.
  destruct (Binary64.of_int (5 * age)) as [years|e]; cbn [bind]; split.
  - intros H. apply round_returns in H. destruct H as [v Hv].
    exists years, v. split; [reflexivity | exact Hv].
  - intros (y & v & E & Hv). injection E as <-.
    apply round_returns. exists v. exact Hv.
  - intros [n Hn]. discriminate Hn.
  - intros (y & v & E & _). discriminate E.
Qed.

End RoundedOutcomes.

(** C3, as stated, fails: a negative weight is an invalid input, yet
    [calculate_bmi] evaluates the formula and returns -22.9, whatever the
    library's [pow], and [calculate_bmr] returns 274; nothing is raised. *)
Lemma negative_weight_is_not_rejected :
  invalid_input (-70) 175 25 "Male" "Metric" /\
  Binary64.for_every_libm
    (fun pow_2 =>
       Binary64.calculate_bmi pow_2 (-70) 175 "Metric" = Ok (-22.9)%float) /\
  Binary64.calculate_bmr (-70) 175 25 "Male" "Metric" = Ok 274%Z.
Proof.
  split; [|split].
  - right; left. reflexivity.
  - intros pow_2 Hf. rewrite calculate_bmi_steps.
    change (height_m_double 175 "Metric") with 1.75%float.
    rewrite pow2_regular by reflexivity.
    change (PrimFloat.abs 1.75) with 1.75%float.
    libm_cases Hf 1.75%float; vm_compute; reflexivity.
  - vm_compute. reflexivity.
Qed.

(** C3, amended. The calculators do not validate their arguments and no
    InvalidInput exists: whether a call returns is decided by the
    arithmetic alone.  [calculate_bmi] returns exactly when the double
    heightM² neither overflows nor is zero, and otherwise raises
    OverflowError or ZeroDivisionError (as for height 0, whatever the weight
    and the unit); [calculate_ideal_weight] and [calculate_bmr] return
    exactly when the double they round is finite.  A non-positive weight,
    height or age and a unit or gender outside the set go through the
    formula like any other value. *)
Theorem calculators_do_not_validate :
  (forall (pow_2 : float -> float) (weight height : float) (unit : string),
      (returns (Binary64.calculate_bmi pow_2 weight height unit) <->
       exists square : float,
         Binary64.pow2 pow_2 (height_m_double height unit) = Ok square /\
         PrimFloat.is_zero square = false) /\
      (forall e : exn,
          Binary64.calculate_bmi pow_2 weight height unit = Raise e ->
          (e = OverflowError /\
           Binary64.pow2 pow_2 (height_m_double height unit)
           = Raise OverflowError) \/
          (e = ZeroDivisionError /\
           exists square : float,
             Binary64.pow2 pow_2 (height_m_double height unit) = Ok square /\
             PrimFloat.is_zero square = true)) /\
      Binary64.calculate_bmi pow_2 weight 0 unit = Raise ZeroDivisionError) /\
  (forall (height : float) (gender unit : string),
      returns (Binary64.calculate_ideal_weight height gender unit) <->
      exists v : Q,
        Binary64.value (ideal_weight_double height gender unit) = Some v) /\
  (forall (weight height : float) (age : Z) (gender unit : string),
      returns (Binary64.calculate_bmr weight height age gender unit) <->
      exists (years : float) (v : Q),
        Binary64.of_int (5 * age) = Ok years /\
        Binary64.value (bmr_double weight height years gender unit) = Some v) /\
  Binary64.for_every_libm
    (fun pow_2 =>
       Binary64.calculate_bmi pow_2 70 (-175) "Metric" = Ok 22.9%float /\
       Binary64.calculate_bmi pow_2 (-70) 175 "Stone" = Ok (-22.9)%float) /\
  Binary64.calculate_ideal_weight (-175) "Other" "Stone" = Ok (-251)%Z /\
  Binary64.calculate_bmr 70 175 (-25) "Other" "Stone" = Ok 1758%Z.
Proof.
  split; [|split; [|split; [|split; [|split]]]].
  - intros pow_2 weight height unit. split; [|split].
    + apply calculate_bmi_returns.
    + intros e. apply calculate_bmi_raises.
    + apply calculate_bmi_zero_height.
  - apply calculate_ideal_weight_returns.
  - apply calculate_bmr_returns.
  - intros pow_2 Hf. split.
    + rewrite calculate_bmi_steps.
      change (height_m_double (-175) "Metric") with (-1.75)%float.
      rewrite pow2_regular by reflexivity.
      change (PrimFloat.abs (-1.75)) with 1.75%float.
      libm_cases Hf 1.75%float; vm_compute; reflexivity.
    + rewrite calculate_bmi_steps.
      change (height_m_double 175 "Stone") with 1.75%float.
      rewrite pow2_regular by reflexivity.
      change (PrimFloat.abs 1.75) with 1.75%float.
      libm_cases Hf 1.75%float; vm_compute; reflexivity.
  - vm_compute. reflexivity.
  - vm_compute. reflexivity.
Qed.

Lemma calculators_do_not_validate_witness :
  returns (Binary64.calculate_bmi Binary64.nearest_square (-70) 175 "Stone") /\
  (OverflowError = OverflowError /\
   Binary64.pow2 Binary64.nearest_square (height_m_double 1e200 "Metric")
   = Raise OverflowError \/
   OverflowError = ZeroDivisionError /\
   exists square : float,
     Binary64.pow2 Binary64.nearest_square (height_m_double 1e200 "Metric")
     = Ok square /\
     PrimFloat.is_zero square = true).
Proof.
  destruct calculators_do_not_validate as (H & _).
  split.
  - destruct (H Binary64.nearest_square (-70)%float 175%float "Stone"%string)
      as (Hr & _).
    apply Hr. eexists. split; vm_compute; reflexivity.
  - destruct (H Binary64.nearest_square 70%float 1e200%float "Metric"%string)
      as (_ & He & _).
    apply He. vm_compute. reflexivity.
Defined.

(** * The scale chart *)

Section Chart.








End Chart.


(** X2. On the scale the script draws, a value lying on a bar gets from
    [get_bmi_color] the colour of that bar; every value from 0 up to 40 lies
    on a bar, and a value of 40 or more lies on none. *)
Theorem bmi_scale_colors :
  exists bars : list Bar,
    bmi_scale = Some bars /\
    (forall (bmi : Q) (b : Bar),
        In b bars -> on_bar bmi b -> marker_color b = get_bmi_color bmi) /\
    (forall bmi : Q,
        0 <= bmi -> bmi < 40 -> exists b : Bar, In b bars /\ on_bar bmi b) /\
    (forall (bmi : Q) (b : Bar), In b bars -> on_bar bmi b -> bmi < 40).
Proof.
  eexists. split; [vm_compute; reflexivity|].
  split; [|split].
  - intros bmi b Hin [Hlo Hhi].
    destruct (threshold_cases bmi)
      as [(H & _ & E)|[(H & H' & _ & E)|[(H & H' & _ & E)|(H & _ & E)]]];
      rewrite E;
      cbn [In] in Hin;
      destruct Hin as [<-|[<-|[<-|[<-|[]]]]];
      cbn [bar_base bar_x marker_color] in *;
      try reflexivity; exfalso; lra.
  - intros bmi H0 H40.
    destruct (threshold_cases bmi)
      as [(H & _)|[(H & H' & _)|[(H & H' & _)|(H & _)]]].
    + eexists. split; [left; reflexivity|].
      split; cbn [bar_base bar_x]; lra.
    + eexists. split; [right; left; reflexivity|].
      split; cbn [bar_base bar_x]; lra.
    + eexists. split; [right; right; left; reflexivity|].
      split; cbn [bar_base bar_x]; lra.
    + eexists. split; [right; right; right; left; reflexivity|].
      split; cbn [bar_base bar_x]; lra.
  - intros bmi b Hin [Hlo Hhi].
    cbn [In] in Hin.
    destruct Hin as [<-|[<-|[<-|[<-|[]]]]];
      cbn [bar_base bar_x] in *; lra.
Qed.

Lemma bmi_scale_colors_witness :
  exists b : Bar, on_bar 22 b /\ marker_color b = get_bmi_color 22.
Proof.
  destruct bmi_scale_colors as (bars & _ & Hc & Hex & _).
  destruct (Hex 22) as (b & Hin & Hon); [discriminate|reflexivity|].
  exists b. split; [exact Hon | apply (Hc 22 b Hin Hon)].
Defined.

(** * Health information and recommendations *)

Section Lookup.

Lemma category_names (bmi : Q) :
  exists c : Category, get_bmi_category bmi = category_name c.
Proof.
  destruct (threshold_cases bmi)
    as [(_ & E & _)|[(_ & _ & E & _)|[(_ & _ & E & _)|(_ & E & _)]]];
    rewrite E;
    [exists Underweight|exists NormalWeight|exists Overweight|exists Obese];
    reflexivity.
Qed.

Lemma current_info_found (key : string) (info : HealthInfo) :
  current_info key = Some info -> exists c : Category, key = category_name c.
Proof.
  unfold current_info, health_info. cbn [dict_getitem].
  destruct (String.eqb_spec "Underweight" key) as [<-|_];
    [intros _; exists Underweight; reflexivity|].
  destruct (String.eqb_spec "Normal Weight" key) as [<-|_];
    [intros _; exists NormalWeight; reflexivity|].
  destruct (String.eqb_spec "Overweight" key) as [<-|_];
    [intros _; exists Overweight; reflexivity|].
  destruct (String.eqb_spec "Obese" key) as [<-|_];
    [intros _; exists Obese; reflexivity|].
  discriminate.
Qed.

End Lookup.

(** X3. The lookup [health_info[category]] succeeds exactly on the four
    strings [get_bmi_category] can return, so it never fails in the main
    flow, and the entry found always lists at least one risk and one
    benefit. *)
Theorem health_info_lookup :
  (forall key : string,
      (exists info : HealthInfo, current_info key = Some info)
      <-> (exists bmi : Q, get_bmi_category bmi = key)) /\
  (forall bmi : Q,
      exists info : HealthInfo,
        current_info (get_bmi_category bmi) = Some info /\
        risks info <> [] /\ benefits info <> []).
Proof.
  assert (Hall : forall c : Category,
             exists info : HealthInfo,
               current_info (category_name c) = Some info /\
               risks info <> [] /\ benefits info <> []).
  { intros c; destruct c; eexists;
      (split; [reflexivity | split; discriminate]). }
  split.
  - intros key. split.
    + intros [info H]. apply current_info_found in H. destruct H as [c ->].
      destruct c;
        [exists 0|exists 18.5|exists 25|exists 30]; reflexivity.
    + intros [bmi <-]. destruct (category_names bmi) as [c ->].
      destruct (Hall c) as (info & H & _). exists info. exact H.
  - intros bmi. destruct (category_names bmi) as [c ->]. apply Hall.
Qed.

(** X4. [get_recommendations] returns three advice strings for every
    argument; a string that is not one of the first three category names,
    known or not, gets the list of Obese, whereas the lookup of such an
    unknown string in [health_info] fails. *)
Theorem get_recommendations_three :
  forall (bmi_category : string) (age : Z) (gender : string),
    List.length (get_recommendations bmi_category age gender) = 3%nat /\
    (bmi_category <> "Underweight"%string ->
     bmi_category <> "Normal Weight"%string ->
     bmi_category <> "Overweight"%string ->
     get_recommendations bmi_category age gender
     = get_recommendations "Obese" age gender /\
     (bmi_category <> "Obese"%string -> current_info bmi_category = None)).
Proof.
  intros bmi_category age gender. split.
  - unfold get_recommendations.
    destruct (bmi_category =? "Underweight")%string; [reflexivity|].
    destruct (bmi_category =? "Normal Weight")%string; [reflexivity|].
    destruct (bmi_category =? "Overweight")%string; reflexivity.
  - intros H1 H2 H3. split.
    + unfold get_recommendations.
      apply String.eqb_neq in H1, H2, H3. rewrite H1, H2, H3. reflexivity.
    + intros H4.
      destruct (current_info bmi_category) as [info|] eqn:E; [|reflexivity].
      apply current_info_found in E. destruct E as [c ->].
      destruct c; contradiction.
Qed.

Lemma get_recommendations_three_witness :
  get_recommendations "Normal" 25 "Male" = get_recommendations "Obese" 25 "Male" /\
  current_info "Normal" = None.
Proof.
  destruct (get_recommendations_three "Normal" 25 "Male") as (_ & H).
  destruct H as (H1 & H2); try discriminate.
  split; [exact H1 | apply H2; discriminate].
Defined.

(** * The two unit systems *)

(** X12. The weight-goal block tests [unit == "Metric"] where the
    calculators test [unit == 'Imperial']: for a unit string that is neither,
    [calculate_bmi] computes as for Metric while the goal is computed, and
    labelled in lbs, as for Imperial; the two agree only on the two values
    of the select box. *)
Theorem weight_goal_unit_fallback :
  forall (category unit : string) (weight height : Q),
    unit <> "Metric"%string -> unit <> "Imperial"%string ->
    calculate_bmi weight height unit = calculate_bmi weight height "Metric" /\
    weight_goal category unit weight height
    = weight_goal category "Imperial" weight height /\
    weight_unit unit = "lbs"%string.
Proof.
  intros category unit weight height Hm Hi.
  apply String.eqb_neq in Hm.
  split; [|split].
  - unfold calculate_bmi. rewrite (not_imperial unit Hi). reflexivity.
  - unfold weight_goal, target_weight, weight_unit. rewrite Hm. reflexivity.
  - unfold weight_unit. rewrite Hm. reflexivity.
Qed.

Lemma weight_goal_unit_fallback_witness :
  calculate_bmi 50 170 "Stone" = Ok 17.3 /\
  weight_goal "Underweight" "Stone" 50 170 = Ok "+710.5 lbs"%string.
Proof.
  destruct (weight_goal_unit_fallback "Underweight" "Stone" 50 170)
    as (Hb & Hg & _); try discriminate.
  split; [rewrite Hb | rewrite Hg]; reflexivity.
Defined.
